(** * zerolog_wrapper: a shallow embedding of the logger initializer

    The Go package keeps three pieces of process-wide state: the one-shot
    guard [once], the published [Logger] and (inside the logging engine) the
    caller formatter [CallerMarshalFunc].  The embedding threads them, together
    with the part of the operating system the code touches, through a small
    state-and-panic monad. *)

From Stdlib Require Import ZArith List Bool Lia.
From Stdlib Require Import Strings.String Strings.Ascii Strings.Byte.
From Stdlib Require Import Numbers.DecimalString.
Import ListNotations.

Local Open Scope string_scope.
Local Open Scope Z_scope.

(** ** The Go standard library functions the wrapper calls *)

Module strings.

(** [strings.HasPrefix(s, prefix)]. *)
Fixpoint HasPrefix (s prefix : string) {struct prefix} : bool :=
  match prefix with
  | EmptyString => true
  | String c prefix' =>
      match s with
      | EmptyString => false
      | String d s' => Ascii.eqb d c && HasPrefix s' prefix'
      end
  end.

(** The slice expression [s[n:]]. *)
Fixpoint slice_from (n : nat) (s : string) : string :=
  match n with
  | O => s
  | S n' =>
      match s with
      | EmptyString => EmptyString
      | String _ s' => slice_from n' s'
      end
  end.

(** [strings.TrimPrefix(s, prefix)]: [s] without the leading [prefix], or
    [s] itself when it does not start with [prefix]. *)
Definition TrimPrefix (s prefix : string) : string :=
  if HasPrefix s prefix then slice_from (String.length prefix) s else s.

End strings.

Module strconv.

(** [strconv.Itoa(i)]: the decimal representation, with a leading minus
    sign for negative numbers. *)
Definition Itoa (i : Z) : string := NilZero.string_of_int (Z.to_int i).

End strconv.

Module time.

Definition RFC3339 : string := "2006-01-02T15:04:05Z07:00".

End time.

Module net.

(** [net.IP] is a byte slice. *)
Definition IP := list byte.

(** The dynamic types a [net.Addr] can have here. *)
Inductive Addr :=
| UDPAddr (ip : IP)
| TCPAddr (ip : IP).

(** A connection; a [net.Conn] interface value is [option Conn], with
    [None] for the nil interface. *)
Record Conn := { LocalAddr : Addr }.

End net.

Module os.

Inductive File := Stdout | Stderr.

End os.

(** ** The logging engine *)

(** Modelled from the spec: the structured-logging engine
    (github.com/rs/zerolog) is an external collaborator that is not part of
    the repository's sources.  Its level type, writers, context builder and
    record builders are modelled from their documented contract: severities
    are ordered trace < debug < info < warn < error < fatal < panic; a record
    builder produces a record only when it is finalized; a finalized fatal
    record terminates the process and a finalized panic record panics. *)

Module zerolog.

(** [type Level int8]. *)
Definition Level := Z.

Definition DebugLevel : Level := 0.
Definition InfoLevel : Level := 1.
Definition WarnLevel : Level := 2.
Definition ErrorLevel : Level := 3.
Definition FatalLevel : Level := 4.
Definition PanicLevel : Level := 5.
Definition NoLevel : Level := 6.
Definition Disabled : Level := 7.
Definition TraceLevel : Level := -1.

Definition level_name (lvl : Level) : string :=
  if lvl =? TraceLevel then "trace"
  else if lvl =? DebugLevel then "debug"
  else if lvl =? InfoLevel then "info"
  else if lvl =? WarnLevel then "warn"
  else if lvl =? ErrorLevel then "error"
  else if lvl =? FatalLevel then "fatal"
  else if lvl =? PanicLevel then "panic"
  else strconv.Itoa lvl.

(** An [io.Writer] as the wrapper builds them: an open file written one
    structured record per line, or a console writer around one. *)
Inductive Writer :=
| FileWriter (f : os.File)
| ConsoleWriter (Out : os.File) (TimeFormat : string).

Inductive LevelWriter :=
| MultiLevelWriter (writers : list Writer).

Inductive Value :=
| VStr (s : string)
| VIP (ip : net.IP)
| VTime (t : Z)
| VErr (e : string).

Definition Field := (string * Value)%type.

Inductive Hook := TimestampHook | CallerHook.

Record Logger := {
  w : option LevelWriter;
  level : Level;
  context : list Field;
  hooks : list Hook
}.

(** The zero value of [zerolog.Logger], which a package-level variable holds
    until it is assigned. *)
Definition zero_Logger : Logger :=
  {| w := None; level := 0; context := []; hooks := [] |}.

Record Context := { l : Logger }.

Definition New (out : LevelWriter) : Logger :=
  {| w := Some out; level := TraceLevel; context := []; hooks := [] |}.

Definition Logger_Level (lg : Logger) (lvl : Level) : Logger :=
  {| w := w lg; level := lvl; context := context lg; hooks := hooks lg |}.

Definition With (lg : Logger) : Context := {| l := lg |}.

Definition add_hook (h : Hook) (c : Context) : Context :=
  {| l := {| w := w (l c); level := level (l c);
             context := context (l c); hooks := hooks (l c) ++ [h] |} |}.

Definition add_field (f : Field) (c : Context) : Context :=
  {| l := {| w := w (l c); level := level (l c);
             context := context (l c) ++ [f]; hooks := hooks (l c) |} |}.

Definition Timestamp (c : Context) : Context := add_hook TimestampHook c.
Definition Caller (c : Context) : Context := add_hook CallerHook c.
Definition IPAddr (key : string) (ip : net.IP) (c : Context) : Context :=
  add_field (key, VIP ip) c.
Definition Str (key val : string) (c : Context) : Context :=
  add_field (key, VStr val) c.
Definition Context_Logger (c : Context) : Logger := l c.

(** [Logger.UpdateContext]: the mutator runs on a context wrapping a copy of
    the logger, and the logger takes over the resulting context fields. *)
Definition Logger_UpdateContext (lg : Logger) (update : Context -> Context)
  : Logger :=
  {| w := w lg; level := level lg;
     context := context (l (update {| l := lg |}));
     hooks := hooks lg |}.

(** A record builder.  A [*zerolog.Event] is [option Event]: the engine
    hands out nil when the logger filters the level out. *)
Record Event := {
  ev_w : LevelWriter;
  ev_level : Level;
  ev_fields : list Field;
  ev_hooks : list Hook
}.

Definition should (lg : Logger) (lvl : Level) : bool :=
  match w lg with
  | None => false
  | Some _ => level lg <=? lvl
  end.

Definition newEvent (lg : Logger) (lvl : Level) : option Event :=
  match w lg with
  | None => None
  | Some out =>
      if should lg lvl
      then Some {| ev_w := out; ev_level := lvl;
                   ev_fields := ("level", VStr (level_name lvl)) :: context lg;
                   ev_hooks := hooks lg |}
      else None
  end.

Definition Event_field (f : Field) (e : option Event) : option Event :=
  match e with
  | None => None
  | Some ev => Some {| ev_w := ev_w ev; ev_level := ev_level ev;
                       ev_fields := ev_fields ev ++ [f];
                       ev_hooks := ev_hooks ev |}
  end.

Definition Event_Err (err : string) (e : option Event) : option Event :=
  Event_field ("error", VErr err) e.

Definition Event_Str (key val : string) (e : option Event) : option Event :=
  Event_field (key, VStr val) e.

(** One line of output: how it is formatted and the fields it carries. *)
Inductive Format := JSONLine | ConsoleLine (TimeFormat : string).

Record Entry := { format : Format; fields : list Field }.

Definition write_to (wr : Writer) (fs : list Field) : os.File * Entry :=
  match wr with
  | FileWriter f => (f, {| format := JSONLine; fields := fs |})
  | ConsoleWriter out tf => (out, {| format := ConsoleLine tf; fields := fs |})
  end.

Definition write (out : LevelWriter) (fs : list Field)
  : list (os.File * Entry) :=
  match out with
  | MultiLevelWriter ws => map (fun wr => write_to wr fs) ws
  end.

(** The level-scoped record builders of a logger. *)
Definition Logger_Trace (lg : Logger) := newEvent lg TraceLevel.
Definition Logger_Debug (lg : Logger) := newEvent lg DebugLevel.
Definition Logger_Info (lg : Logger) := newEvent lg InfoLevel.
Definition Logger_Warn (lg : Logger) := newEvent lg WarnLevel.
Definition Logger_Error (lg : Logger) := newEvent lg ErrorLevel.
Definition Logger_Fatal (lg : Logger) := newEvent lg FatalLevel.
Definition Logger_Panic (lg : Logger) := newEvent lg PanicLevel.

End zerolog.

(** ** Process state *)

(** The part of the operating system the package reads and writes:
    [getwd] is what [os.Getwd] finds ([None] when it fails), [dial] tells
    for a network and an address whether [net.Dial] succeeds and with which
    local IP, [dials] counts the probes made, [open_conns] the connections
    not yet closed, [now] is the clock and [out] everything written to the
    two standard streams, oldest first. *)
Record OS := {
  getwd : option string;
  dial : string -> string -> option net.IP;
  dials : nat;
  open_conns : nat;
  now : Z;
  out : list (os.File * zerolog.Entry)
}.

(** [os.Getwd()]: the directory and an error; the directory is empty when
    there is an error. *)
Definition os_Getwd (o : OS) : string * option string :=
  match getwd o with
  | Some d => (d, None)
  | None => ("", Some "getwd")
  end.

(** The type of [zerolog.CallerMarshalFunc].  The function is a closure that
    may consult the operating system when it is called, so it receives the
    state of the operating system at the time of the call. *)
Definition CallerMarshal := OS -> Z -> string -> Z -> string.

(** The package-level variables: [once], [Logger] and the engine's
    [CallerMarshalFunc]. *)
Record State := {
  sys : OS;
  once_done : bool;
  Logger : zerolog.Logger;
  CallerMarshalFunc : CallerMarshal
}.

(** The engine's default caller formatter. *)
Definition default_CallerMarshalFunc : CallerMarshal :=
  fun _ _ file line => file ++ ":" ++ strconv.Itoa line.

(** The state of a process that has just started. *)
Definition start (o : OS) : State :=
  {| sys := o; once_done := false; Logger := zerolog.zero_Logger;
     CallerMarshalFunc := default_CallerMarshalFunc |}.

Definition with_sys (o : OS) (st : State) : State :=
  {| sys := o; once_done := once_done st; Logger := Logger st;
     CallerMarshalFunc := CallerMarshalFunc st |}.

Definition with_once_done (st : State) : State :=
  {| sys := sys st; once_done := true; Logger := Logger st;
     CallerMarshalFunc := CallerMarshalFunc st |}.

Definition with_Logger (lg : zerolog.Logger) (st : State) : State :=
  {| sys := sys st; once_done := once_done st; Logger := lg;
     CallerMarshalFunc := CallerMarshalFunc st |}.

Definition with_CallerMarshalFunc (f : CallerMarshal) (st : State) : State :=
  {| sys := sys st; once_done := once_done st; Logger := Logger st;
     CallerMarshalFunc := f |}.

(** ** Computations that may panic or exit *)

Inductive PanicValue :=
| NilDereference
| TypeAssertion
| PanicMessage (msg : string).

Inductive Result (A : Type) :=
| Ok (a : A) (st : State)
| Panicked (v : PanicValue) (st : State)
| Exited (code : Z) (st : State).

Arguments Ok {A} a st.
Arguments Panicked {A} v st.
Arguments Exited {A} code st.

Definition M (A : Type) := State -> Result A.

Definition ret {A} (a : A) : M A := fun st => Ok a st.

Definition bind {A B} (m : M A) (k : A -> M B) : M B :=
  fun st =>
    match m st with
    | Ok a st' => k a st'
    | Panicked v st' => Panicked v st'
    | Exited c st' => Exited c st'
    end.

Definition panic {A} (v : PanicValue) : M A := fun st => Panicked v st.

Definition modify (f : State -> State) : M unit := fun st => Ok tt (f st).

(** An expression statement: the value is computed from the state and
    dropped. *)
Definition discard {A} (e : State -> A) : M unit :=
  fun st => let _ := e st in Ok tt st.

Declare Scope go_scope.
Delimit Scope go_scope with go.
Notation "x <- c ;; k" := (bind c (fun x => k))
  (at level 100, c at next level, right associativity) : go_scope.
Notation "c ;;; k" := (bind c (fun _ => k))
  (at level 100, right associativity) : go_scope.
Local Open Scope go_scope.

(** The state a computation leaves behind, however it ends. *)
Definition state_of {A} (r : Result A) : State :=
  match r with
  | Ok _ st => st
  | Panicked _ st => st
  | Exited _ st => st
  end.

(** [once.Do(f)] run by a single thread: [f] runs unless the guard is set,
    and the guard is set when [f] returns or panics. *)
Definition once_Do (f : M unit) : M unit :=
  fun st =>
    if once_done st then Ok tt st
    else match f st with
         | Ok _ st' => Ok tt (with_once_done st')
         | Panicked v st' => Panicked v (with_once_done st')
         | Exited c st' => Exited c st'
         end.

(** A function body with one deferred call: the deferred call runs when the
    body returns and also when it panics, before the panic goes on. *)
Definition with_defer {A} (deferred : M unit) (body : M A) : M A :=
  fun st =>
    match body st with
    | Ok a st' =>
        match deferred st' with
        | Ok _ st'' => Ok a st''
        | Panicked v st'' => Panicked v st''
        | Exited c st'' => Exited c st''
        end
    | Panicked v st' =>
        match deferred st' with
        | Ok _ st'' => Panicked v st''
        | Panicked v' st'' => Panicked v' st''
        | Exited c st'' => Exited c st''
        end
    | Exited c st' => Exited c st'
    end.

(** [net.Dial(network, address)]: a connection and an error. *)
Definition net_Dial (network address : string)
  : M (option net.Conn * option string) :=
  fun st =>
    let o := sys st in
    match dial o network address with
    | Some ip =>
        let addr := if String.eqb network "udp"
                    then net.UDPAddr ip else net.TCPAddr ip in
        Ok (Some {| net.LocalAddr := addr |}, None)
           (with_sys {| getwd := getwd o; dial := dial o;
                        dials := S (dials o);
                        open_conns := S (open_conns o);
                        now := now o; out := out o |} st)
    | None =>
        Ok (None, Some "dial")
           (with_sys {| getwd := getwd o; dial := dial o;
                        dials := S (dials o);
                        open_conns := open_conns o;
                        now := now o; out := out o |} st)
    end.

(** [conn.Close()] on a connection that is not nil. *)
Definition Conn_Close (c : net.Conn) : M unit :=
  modify (fun st =>
    let o := sys st in
    with_sys {| getwd := getwd o; dial := dial o; dials := dials o;
                open_conns := Nat.pred (open_conns o);
                now := now o; out := out o |} st).

(** The type assertion of an address to a pointer to [net.UDPAddr],
    followed by the selection of its [IP] field. *)
Definition assert_UDPAddr_IP (a : net.Addr) : M net.IP :=
  match a with
  | net.UDPAddr ip => ret ip
  | net.TCPAddr _ => panic TypeAssertion
  end.

(** Modelled from the spec: finalizing a record builder ([Msg]) is the
    engine's, not the repository's.  The hooks of the logger run at that
    moment: the timestamp hook reads the clock and the caller hook renders
    the call site [(file, line)] through the installed [CallerMarshalFunc].
    The record goes to every writer; a fatal record then exits the process
    and a panic record panics.  A nil builder produces nothing. *)
Definition hook_field (st : State) (site : string * Z) (h : zerolog.Hook)
  : zerolog.Field :=
  match h with
  | zerolog.TimestampHook => ("time", zerolog.VTime (now (sys st)))
  | zerolog.CallerHook =>
      ("caller",
       zerolog.VStr (CallerMarshalFunc st (sys st) 0 (fst site) (snd site)))
  end.

Definition record_fields (st : State) (site : string * Z)
  (ev : zerolog.Event) (msg : string) : list zerolog.Field :=
  zerolog.ev_fields ev ++ map (hook_field st site) (zerolog.ev_hooks ev)
    ++ [("message", zerolog.VStr msg)].

Definition emit (lines : list (os.File * zerolog.Entry)) (st : State)
  : State :=
  let o := sys st in
  with_sys {| getwd := getwd o; dial := dial o; dials := dials o;
              open_conns := open_conns o; now := now o;
              out := out o ++ lines |} st.

Definition Event_Msg (site : string * Z) (msg : string)
  (e : option zerolog.Event) : M unit :=
  fun st =>
    match e with
    | None => Ok tt st
    | Some ev =>
        let st' :=
          emit (zerolog.write (zerolog.ev_w ev) (record_fields st site ev msg))
               st in
        if zerolog.ev_level ev =? zerolog.FatalLevel then Exited 1 st'
        else if zerolog.ev_level ev =? zerolog.PanicLevel
             then Panicked (PanicMessage msg) st'
             else Ok tt st'
    end.

(** [os.Chdir(dir)], which a program may call at any time. *)
Definition os_Chdir (dir : string) : M unit :=
  modify (fun st =>
    let o := sys st in
    with_sys {| getwd := Some dir; dial := dial o; dials := dials o;
                open_conns := open_conns o; now := now o; out := out o |} st).

(** ** The package zerolog_wrapper *)

(** [type LogLevel string] and its constants. *)
Definition LogLevel := string.

Definition TraceLevel : LogLevel := "trace".
Definition DebugLevel : LogLevel := "debug".
Definition InfoLevel : LogLevel := "info".
Definition WarnLevel : LogLevel := "warn".
Definition ErrorLevel : LogLevel := "error".
Definition FatalLevel : LogLevel := "fatal".
Definition PanicLevel : LogLevel := "panic".

(** [type Env string] and its constants. *)
Definition Env := string.

Definition Prod : Env := "prod".
Definition Stage : Env := "stage".
Definition QA : Env := "qa".
Definition Dev : Env := "dev".

(** [getLocalIP]: the local address of the running system.  When the dial
    fails, the statement in the [if] starts a fatal record, attaches the
    error and drops the builder; control then reaches the [defer], where the
    method value [conn.Close] of the nil interface is evaluated. *)
Definition getLocalIP : M net.IP :=
  r <- net_Dial "udp" "1.1.1.1:53" ;;
  let '(conn, err) := r in
  (match err with
   | Some e =>
       discard (fun st => zerolog.Event_Err e (zerolog.Logger_Fatal (Logger st)))
   | None => ret tt
   end) ;;;
  match conn with
  | None => panic NilDereference
  | Some c =>
      with_defer (Conn_Close c) (assert_UDPAddr_IP (net.LocalAddr c))
  end.

(** The [switch] on [logLevelStr]. *)
Definition resolveLevel (logLevelStr : LogLevel) : zerolog.Level :=
  if String.eqb logLevelStr TraceLevel then zerolog.TraceLevel
  else if String.eqb logLevelStr DebugLevel then zerolog.DebugLevel
  else if String.eqb logLevelStr InfoLevel then zerolog.InfoLevel
  else if String.eqb logLevelStr WarnLevel then zerolog.WarnLevel
  else if String.eqb logLevelStr ErrorLevel then zerolog.ErrorLevel
  else if String.eqb logLevelStr FatalLevel then zerolog.FatalLevel
  else if String.eqb logLevelStr PanicLevel then zerolog.PanicLevel
  else zerolog.InfoLevel.

(** The values of [logLevel] and [output] after the [switch] and the
    development override. *)
Definition resolve (logLevelStr : LogLevel) (appEnv : Env)
  : zerolog.Level * zerolog.LevelWriter :=
  let logLevel := resolveLevel logLevelStr in
  let output := zerolog.MultiLevelWriter [zerolog.FileWriter os.Stderr] in
  if String.eqb appEnv Dev then
    let consoleOutput := zerolog.ConsoleWriter os.Stdout time.RFC3339 in
    (zerolog.TraceLevel, zerolog.MultiLevelWriter [consoleOutput])
  else (logLevel, output).

(** The function assigned to [zerolog.CallerMarshalFunc]: the working
    directory is looked up inside the function, and the error of the lookup
    is ignored. *)
Definition shortCallerMarshalFunc : CallerMarshal :=
  fun o pc file line =>
    let '(curDir, _) := os_Getwd o in
    let shortPath := strings.TrimPrefix file (curDir ++ "/") in
    shortPath ++ ":" ++ strconv.Itoa line.

(** The logger that the builder chain yields. *)
Definition build_Logger (output : zerolog.LevelWriter)
  (logLevel : zerolog.Level) (host_ip : net.IP) : zerolog.Logger :=
  zerolog.Context_Logger
    (zerolog.Caller
       (zerolog.IPAddr "host_ip" host_ip
          (zerolog.Timestamp
             (zerolog.With
                (zerolog.Logger_Level (zerolog.New output) logLevel))))).

(** The body handed to [once.Do], up to and including the assignment to
    [Logger].  [getLocalIP] is called while the arguments of [IPAddr] are
    evaluated, before anything is assigned. *)
Definition configure (logLevelStr : LogLevel) (appEnv : Env) : M unit :=
  let '(logLevel, output) := resolve logLevelStr appEnv in
  modify (with_CallerMarshalFunc shortCallerMarshalFunc) ;;;
  host_ip <- getLocalIP ;;
  modify (with_Logger (build_Logger output logLevel host_ip)).

(** The last statement of the body, [Logger.With().Caller()]. *)
Definition trailing_statement : M unit :=
  discard (fun st => zerolog.Caller (zerolog.With (Logger st))).

(** [InitLog] initializes the global logger. *)
Definition InitLog (logLevelStr : LogLevel) (appEnv : Env) : M unit :=
  once_Do (configure logLevelStr appEnv ;;; trailing_statement).

(** [UpdateContext] updates the context of the global logger. *)
Definition UpdateContext (update : zerolog.Context -> zerolog.Context)
  : M unit :=
  modify (fun st =>
    with_Logger (zerolog.Logger_UpdateContext (Logger st) update) st).

(** The level-scoped entry points. *)
Definition Trace : M (option zerolog.Event) :=
  fun st => Ok (zerolog.Logger_Trace (Logger st)) st.
Definition Debug : M (option zerolog.Event) :=
  fun st => Ok (zerolog.Logger_Debug (Logger st)) st.
Definition Info : M (option zerolog.Event) :=
  fun st => Ok (zerolog.Logger_Info (Logger st)) st.
Definition Warn : M (option zerolog.Event) :=
  fun st => Ok (zerolog.Logger_Warn (Logger st)) st.
Definition Error : M (option zerolog.Event) :=
  fun st => Ok (zerolog.Logger_Error (Logger st)) st.
Definition Fatal : M (option zerolog.Event) :=
  fun st => Ok (zerolog.Logger_Fatal (Logger st)) st.
Definition Panic : M (option zerolog.Event) :=
  fun st => Ok (zerolog.Logger_Panic (Logger st)) st.

(** ** The earlier version of the package

    The same file as it stood before [UpdateContext] was added.  Its logger
    variable is called [log]; it occupies the [Logger] slot of the state. *)

Module Prev.

Definition getLocalIP : M net.IP :=
  r <- net_Dial "udp" "1.1.1.1:http" ;;
  let '(conn, err) := r in
  (match err with
   | Some e =>
       discard (fun st => zerolog.Event_Err e (zerolog.Logger_Fatal (Logger st)))
   | None => ret tt
   end) ;;;
  match conn with
  | None => panic NilDereference
  | Some c =>
      with_defer (Conn_Close c) (assert_UDPAddr_IP (net.LocalAddr c))
  end.

Definition resolveLevel (logLevelStr : LogLevel) : zerolog.Level :=
  if String.eqb logLevelStr TraceLevel then zerolog.TraceLevel
  else if String.eqb logLevelStr DebugLevel then zerolog.DebugLevel
  else if String.eqb logLevelStr InfoLevel then zerolog.InfoLevel
  else if String.eqb logLevelStr WarnLevel then zerolog.WarnLevel
  else if String.eqb logLevelStr ErrorLevel then zerolog.ErrorLevel
  else if String.eqb logLevelStr FatalLevel then zerolog.FatalLevel
  else if String.eqb logLevelStr PanicLevel then zerolog.PanicLevel
  else zerolog.InfoLevel.

Definition resolve (logLevelStr : LogLevel) (appEnv : Env)
  : zerolog.Level * zerolog.LevelWriter :=
  let logLevel := resolveLevel logLevelStr in
  let output := zerolog.MultiLevelWriter [zerolog.FileWriter os.Stderr] in
  if String.eqb appEnv Dev then
    let consoleOutput := zerolog.ConsoleWriter os.Stdout time.RFC3339 in
    (zerolog.TraceLevel, zerolog.MultiLevelWriter [consoleOutput])
  else (logLevel, output).

(** The conversion [zerolog.Level(logLevel)] of a value that already has
    that type. *)
Definition to_Level (lvl : zerolog.Level) : zerolog.Level := lvl.

Definition build_log (output : zerolog.LevelWriter)
  (logLevel : zerolog.Level) (host_ip : net.IP) : zerolog.Logger :=
  zerolog.Context_Logger
    (zerolog.Caller
       (zerolog.IPAddr "host_ip" host_ip
          (zerolog.Timestamp
             (zerolog.With
                (zerolog.Logger_Level (zerolog.New output)
                   (to_Level logLevel)))))).

Definition configure (logLevelStr : LogLevel) (appEnv : Env) : M unit :=
  let '(logLevel, output) := resolve logLevelStr appEnv in
  modify (with_CallerMarshalFunc shortCallerMarshalFunc) ;;;
  host_ip <- getLocalIP ;;
  modify (with_Logger (build_log output logLevel host_ip)).

Definition InitLog (logLevelStr : LogLevel) (appEnv : Env) : M unit :=
  once_Do (configure logLevelStr appEnv ;;; trailing_statement).

End Prev.

(** ** Notions used in the statements *)

(** The state after one dial whose connection, if any, has been closed. *)
Definition dialled (st : State) : State :=
  let o := sys st in
  with_sys {| getwd := getwd o; dial := dial o; dials := S (dials o);
              open_conns := open_conns o; now := now o; out := out o |} st.

(** A process that calls [InitLog] again and again, recovering from the
    panics of the calls that panic. *)
Fixpoint run_calls (calls : list (LogLevel * Env)) (st : State) : State :=
  match calls with
  | [] => st
  | (lvl, env) :: rest => run_calls rest (state_of (InitLog lvl env st))
  end.

(** ** Two machines to run the package on *)

(** A machine with a route to the outside, started in [/srv/app]. *)
Definition online : OS :=
  {| getwd := Some "/srv/app";
     dial := fun _ _ => Some [x0a; x00; x00; x07];
     dials := 0; open_conns := 0; now := 1700000000; out := [] |}.

(** The same machine without a route: every dial fails. *)
Definition offline : OS :=
  {| getwd := Some "/srv/app";
     dial := fun _ _ => None;
     dials := 0; open_conns := 0; now := 1700000000; out := [] |}.

(** A machine on which the dial of port 53 succeeds and the dial of any
    other address, a service name among them, fails. *)
Definition port_53_only : OS :=
  {| getwd := Some "/srv/app";
     dial := fun _ address =>
               if String.eqb address "1.1.1.1:53"
               then Some [x0a; x00; x00; x07] else None;
     dials := 0; open_conns := 0; now := 1700000000; out := [] |}.

(** A machine on which the lookup of the working directory fails. *)
Definition without_cwd : OS :=
  {| getwd := None;
     dial := fun _ _ => Some [x0a; x00; x00; x07];
     dials := 0; open_conns := 0; now := 1700000000; out := [] |}.

(** The caller field a record gets when it is emitted in state [st] from the
    call site [file], [line]. *)
Definition caller_field (st : State) (file : string) (line : Z) : string :=
  CallerMarshalFunc st (sys st) 0 file line.

(** The caller field in the words of the specification: the directory that
    was current when the formatter was installed is stripped from the file,
    and a colon and the line number are appended. *)
Definition spec_caller_field (captured file : string) (line : Z) : string :=
  strings.TrimPrefix file (captured ++ "/") ++ ":" ++ strconv.Itoa line.

(** The formatter as a function of a directory captured once: wherever the
    process has moved to since [InitLog], the field is computed from the
    directory [InitLog] was called in. *)
Definition captures_working_directory_once : Prop :=
  forall (lvl : LogLevel) (env : Env) (st : State)
         (dir file : string) (line : Z),
    once_done st = false ->
    let st1 := state_of (InitLog lvl env st) in
    let st2 := state_of (os_Chdir dir st1) in
    caller_field st2 file line =
      spec_caller_field (fst (os_Getwd (sys st))) file line.

(** A record builder started at [lvl] on logger [lg], to which the caller
    has added the fields [extra]. *)
Definition started (lg : zerolog.Logger) (lvl : zerolog.Level)
  (extra : list zerolog.Field) : option zerolog.Event :=
  fold_left (fun e f => zerolog.Event_field f e) extra
            (zerolog.newEvent lg lvl).

(** The lines that finalizing a builder in state [st] writes. *)
Definition lines_of (site : string * Z) (msg : string)
  (e : option zerolog.Event) (st : State) : list (os.File * zerolog.Entry) :=
  match e with
  | None => []
  | Some ev => zerolog.write (zerolog.ev_w ev) (record_fields st site ev msg)
  end.

(** The documented use: after [InitLog] on a machine with a route, a
    default field is added and an info record is emitted. *)
Definition configured : State :=
  state_of (InitLog InfoLevel Prod (start online)).

Definition with_default_field : State :=
  state_of (UpdateContext
              (zerolog.Str "some_default_key" "some_default_value")
              configured).

(** The lines of an info record with the message [hello world], emitted
    from [main.go], line 14, in state [st]. *)
Definition hello_lines (st : State) : list (os.File * zerolog.Entry) :=
  lines_of ("/srv/app/main.go", 14) "hello world"
           (started (Logger st) zerolog.InfoLevel []) st.

(** A record whose builder is started before the context is updated and
    finalized after it: [e := Info()], then [UpdateContext], then
    [e.Msg]. *)
Definition straddling_record : M unit :=
  e <- Info ;;
  UpdateContext (zerolog.Str "some_default_key" "some_default_value") ;;;
  Event_Msg ("/srv/app/main.go", 14) "hello world" e.

(** The effect of [UpdateContext] in the words of the specification: every
    record emitted after the call carries the added field, whether its
    builder was started on the logger before the call or after it. *)
Definition every_later_record_carries_the_update : Prop :=
  forall (st : State) (key val : string) (lg : zerolog.Logger)
         (lvl : zerolog.Level) (extra : list zerolog.Field)
         (site : string * Z) (msg : string)
         (line : os.File * zerolog.Entry),
    let st1 := state_of (UpdateContext (zerolog.Str key val) st) in
    lg = Logger st \/ lg = Logger st1 ->
    In line (lines_of site msg (started lg lvl extra) st1) ->
    In (key, zerolog.VStr val) (zerolog.fields (snd line)).

(** * Properties *)

(** ** Strings *)

Lemma HasPrefix_app (p r : string) : strings.HasPrefix (p ++ r) p = true.
Proof.
  induction p as [|c p IH]; simpl.
  - reflexivity.
  - now rewrite Ascii.eqb_refl, IH.
Qed.

Lemma slice_from_app (p r : string) :
  strings.slice_from (String.length p) (p ++ r) = r.
Proof.
  induction p as [|c p IH]; simpl; auto.
Qed.

Lemma TrimPrefix_app (p r : string) : strings.TrimPrefix (p ++ r) p = r.
Proof.
  unfold strings.TrimPrefix.
  now rewrite HasPrefix_app, slice_from_app.
Qed.

Lemma TrimPrefix_absent (s p : string) :
  strings.HasPrefix s p = false -> strings.TrimPrefix s p = s.
Proof.
  unfold strings.TrimPrefix. now intros ->.
Qed.

Lemma string_app_assoc (a b c : string) : ((a ++ b) ++ c = a ++ (b ++ c))%string.
Proof.
  induction a as [|x a IH]; simpl; [reflexivity | now rewrite IH].
Qed.

(** ** The probe *)

Lemma getLocalIP_up (st : State) (ip : net.IP) :
  dial (sys st) "udp" "1.1.1.1:53" = Some ip ->
  getLocalIP st = Ok ip (dialled st).
Proof.
  intros H. unfold getLocalIP, bind, net_Dial. rewrite H. reflexivity.
Qed.

Lemma getLocalIP_down (st : State) :
  dial (sys st) "udp" "1.1.1.1:53" = None ->
  getLocalIP st = Panicked NilDereference (dialled st).
Proof.
  intros H. unfold getLocalIP, bind, net_Dial. rewrite H. reflexivity.
Qed.

Lemma configure_up (lvl : LogLevel) (env : Env) (st : State) (ip : net.IP) :
  dial (sys st) "udp" "1.1.1.1:53" = Some ip ->
  configure lvl env st =
    Ok tt (with_Logger (build_Logger (snd (resolve lvl env))
                                     (fst (resolve lvl env)) ip)
             (dialled (with_CallerMarshalFunc shortCallerMarshalFunc st))).
Proof.
  intros H. unfold configure. destruct (resolve lvl env) as [lv o].
  unfold bind at 1. unfold modify at 1. unfold bind at 1.
  rewrite (getLocalIP_up _ ip) by exact H. reflexivity.
Qed.

Lemma configure_down (lvl : LogLevel) (env : Env) (st : State) :
  dial (sys st) "udp" "1.1.1.1:53" = None ->
  configure lvl env st =
    Panicked NilDereference
      (dialled (with_CallerMarshalFunc shortCallerMarshalFunc st)).
Proof.
  intros H. unfold configure. destruct (resolve lvl env) as [lv o].
  unfold bind at 1. unfold modify at 1. unfold bind at 1.
  rewrite getLocalIP_down by exact H. reflexivity.
Qed.

Lemma InitLog_done (lvl : LogLevel) (env : Env) (st : State) :
  once_done st = true -> InitLog lvl env st = Ok tt st.
Proof.
  intros H. unfold InitLog, once_Do. now rewrite H.
Qed.

Lemma InitLog_up (lvl : LogLevel) (env : Env) (st : State) (ip : net.IP) :
  once_done st = false ->
  dial (sys st) "udp" "1.1.1.1:53" = Some ip ->
  InitLog lvl env st =
    Ok tt (with_once_done
             (with_Logger (build_Logger (snd (resolve lvl env))
                                        (fst (resolve lvl env)) ip)
                (dialled (with_CallerMarshalFunc shortCallerMarshalFunc st)))).
Proof.
  intros Hd H. unfold InitLog, once_Do. rewrite Hd.
  unfold bind. rewrite (configure_up _ _ _ ip) by exact H. reflexivity.
Qed.

Lemma InitLog_down (lvl : LogLevel) (env : Env) (st : State) :
  once_done st = false ->
  dial (sys st) "udp" "1.1.1.1:53" = None ->
  InitLog lvl env st =
    Panicked NilDereference
      (with_once_done
         (dialled (with_CallerMarshalFunc shortCallerMarshalFunc st))).
Proof.
  intros Hd H. unfold InitLog, once_Do. rewrite Hd.
  unfold bind. rewrite configure_down by exact H. reflexivity.
Qed.

(** Whatever the probe finds, [InitLog] leaves the guard set. *)
Lemma InitLog_sets_guard (lvl : LogLevel) (env : Env) (st : State) :
  once_done (state_of (InitLog lvl env st)) = true.
Proof.
  destruct (once_done st) eqn:Hd.
  - now rewrite InitLog_done.
  - destruct (dial (sys st) "udp" "1.1.1.1:53") as [ip|] eqn:H.
    + now rewrite (InitLog_up _ _ _ ip).
    + now rewrite InitLog_down.
Qed.

Lemma InitLog_dials (lvl : LogLevel) (env : Env) (st : State) :
  dials (sys (state_of (InitLog lvl env st))) =
    if once_done st then dials (sys st) else S (dials (sys st)).
Proof.
  destruct (once_done st) eqn:Hd.
  - now rewrite InitLog_done.
  - destruct (dial (sys st) "udp" "1.1.1.1:53") as [ip|] eqn:H.
    + now rewrite (InitLog_up _ _ _ ip).
    + now rewrite InitLog_down.
Qed.

Lemma run_calls_done (calls : list (LogLevel * Env)) (st : State) :
  once_done st = true -> run_calls calls st = st.
Proof.
  induction calls as [|[lvl env] rest IH]; simpl; intros H.
  - reflexivity.
  - rewrite InitLog_done by exact H. simpl. now apply IH.
Qed.

(** ** Initialization *)

(** C1. [InitLog] is idempotent.  Whatever the first call finds, it leaves
    the guard set; every later call, with any level and environment, then
    returns at once and leaves the whole process state as it was: the
    published [Logger], the caller formatter and the operating system.  The
    body thus runs at most once: a process that starts fresh and calls
    [InitLog] any number of times probes the network at most once, and what
    it ends with is what its first call left. *)
Theorem InitLog_idempotent :
  forall (lvl : LogLevel) (env : Env) (st : State),
    let st1 := state_of (InitLog lvl env st) in
    once_done st1 = true /\
    (forall (lvl' : LogLevel) (env' : Env),
        InitLog lvl' env' st1 = Ok tt st1) /\
    (forall calls : list (LogLevel * Env),
        run_calls calls st1 = st1 /\
        Logger (run_calls calls st1) = Logger st1) /\
    (forall (o : OS) (calls : list (LogLevel * Env)),
        (dials (sys (run_calls calls (start o))) <= S (dials o))%nat).
Proof.
  intros lvl env st st1.
  assert (Hg : once_done st1 = true) by apply InitLog_sets_guard.
  split; [exact Hg|]. split; [|split].
  - intros lvl' env'. now apply InitLog_done.
  - intros calls. rewrite run_calls_done by exact Hg. split; reflexivity.
  - intros o [|[l0 e0] rest]; simpl.
    + lia.
    + rewrite run_calls_done by apply InitLog_sets_guard.
      rewrite InitLog_dials. simpl. lia.
Qed.

(** C4. The [switch] sends each of the seven level tags to the engine's
    level of the same name, the seven results are pairwise different, and
    every other string resolves to info. *)
Theorem resolveLevel_table :
  resolveLevel TraceLevel = zerolog.TraceLevel /\
  resolveLevel DebugLevel = zerolog.DebugLevel /\
  resolveLevel InfoLevel = zerolog.InfoLevel /\
  resolveLevel WarnLevel = zerolog.WarnLevel /\
  resolveLevel ErrorLevel = zerolog.ErrorLevel /\
  resolveLevel FatalLevel = zerolog.FatalLevel /\
  resolveLevel PanicLevel = zerolog.PanicLevel /\
  NoDup (map resolveLevel
           [TraceLevel; DebugLevel; InfoLevel; WarnLevel;
            ErrorLevel; FatalLevel; PanicLevel]) /\
  (forall s : LogLevel,
      ~ In s [TraceLevel; DebugLevel; InfoLevel; WarnLevel;
              ErrorLevel; FatalLevel; PanicLevel] ->
      resolveLevel s = zerolog.InfoLevel).
Proof.
  repeat (split; [reflexivity|]).
  split.
  - cbv. repeat constructor; simpl; intuition discriminate.
  - intros s H. unfold resolveLevel.
    repeat match goal with
    | |- context [String.eqb s ?t] =>
        destruct (String.eqb_spec s t) as [->|_];
        [exfalso; apply H; simpl; tauto|]
    end.
    reflexivity.
Qed.

Lemma resolveLevel_table_witness :
  resolveLevel "verbose" = zerolog.InfoLevel.
Proof.
  apply resolveLevel_table.
  simpl. unfold TraceLevel, DebugLevel, InfoLevel, WarnLevel, ErrorLevel,
    FatalLevel, PanicLevel.
  intuition discriminate.
Defined.

(** C3. When the guard is open and the probe succeeds, [InitLog] returns
    and publishes a logger whose writer and minimum level depend on the
    environment alone: for dev a console writer on standard output and the
    level trace, whatever level was asked for; for every other environment,
    recognized or not, a writer on standard error and the resolved level. *)
Theorem InitLog_output_and_level :
  forall (lvl : LogLevel) (env : Env) (st : State) (ip : net.IP),
    once_done st = false ->
    dial (sys st) "udp" "1.1.1.1:53" = Some ip ->
    exists st1,
      InitLog lvl env st = Ok tt st1 /\
      (env = Dev ->
         zerolog.level (Logger st1) = zerolog.TraceLevel /\
         zerolog.w (Logger st1) =
           Some (zerolog.MultiLevelWriter
                   [zerolog.ConsoleWriter os.Stdout time.RFC3339])) /\
      (env <> Dev ->
         zerolog.level (Logger st1) = resolveLevel lvl /\
         zerolog.w (Logger st1) =
           Some (zerolog.MultiLevelWriter [zerolog.FileWriter os.Stderr])).
Proof.
  intros lvl env st ip Hd H.
  eexists. split; [apply (InitLog_up _ _ _ ip); assumption|].
  unfold resolve. split.
  - intros ->. simpl. split; reflexivity.
  - intros Hne. destruct (String.eqb_spec env Dev) as [E|_]; [contradiction|].
    simpl. split; reflexivity.
Qed.

Lemma InitLog_output_and_level_witness :
  exists st1,
    InitLog WarnLevel Stage (start online) = Ok tt st1 /\
    (Stage = Dev ->
       zerolog.level (Logger st1) = zerolog.TraceLevel /\
       zerolog.w (Logger st1) =
         Some (zerolog.MultiLevelWriter
                 [zerolog.ConsoleWriter os.Stdout time.RFC3339])) /\
    (Stage <> Dev ->
       zerolog.level (Logger st1) = resolveLevel WarnLevel /\
       zerolog.w (Logger st1) =
         Some (zerolog.MultiLevelWriter [zerolog.FileWriter os.Stderr])).
Proof.
  apply (InitLog_output_and_level WarnLevel Stage (start online)
           [x0a; x00; x00; x07]); reflexivity.
Defined.

(** ** The failing probe *)

(** C8. When the dial fails, [getLocalIP] writes nothing and does not exit:
    the fatal record it starts is dropped without being finalized, the
    logger is left as it was, and the function ends in the panic of a nil
    dereference at the connection.  [InitLog], called with the guard open,
    ends in the same panic, with nothing written and no logger published. *)
Theorem getLocalIP_probe_failure :
  forall st : State,
    dial (sys st) "udp" "1.1.1.1:53" = None ->
    (exists st1,
        getLocalIP st = Panicked NilDereference st1 /\
        out (sys st1) = out (sys st) /\
        Logger st1 = Logger st) /\
    (forall (lvl : LogLevel) (env : Env),
        once_done st = false ->
        exists st1,
          InitLog lvl env st = Panicked NilDereference st1 /\
          out (sys st1) = out (sys st) /\
          Logger st1 = Logger st).
Proof.
  intros st H. split.
  - eexists. split; [now apply getLocalIP_down|]. split; reflexivity.
  - intros lvl env Hd.
    eexists. split; [now apply InitLog_down|]. split; reflexivity.
Qed.

Lemma getLocalIP_probe_failure_witness :
  dial (sys (start offline)) "udp" "1.1.1.1:53" = None /\
  (exists st1,
      getLocalIP (start offline) = Panicked NilDereference st1 /\
      out (sys st1) = out (sys (start offline)) /\
      Logger st1 = Logger (start offline)) /\
  (exists st1,
      InitLog WarnLevel QA (start offline) = Panicked NilDereference st1 /\
      out (sys st1) = out (sys (start offline)) /\
      Logger st1 = Logger (start offline)).
Proof.
  split; [reflexivity|]. split.
  - exact (proj1 (getLocalIP_probe_failure (start offline) eq_refl)).
  - exact (proj2 (getLocalIP_probe_failure (start offline) eq_refl)
             WarnLevel QA eq_refl).
Defined.

(** C5. On a machine without a route, [InitLog] neither writes a fatal
    record nor exits: both standard streams stay empty, the logger stays the
    zero value, and the call ends in the panic of a nil dereference. *)
Theorem InitLog_offline_writes_no_fatal_record :
  exists st1,
    InitLog InfoLevel Prod (start offline) = Panicked NilDereference st1 /\
    out (sys st1) = [] /\
    Logger st1 = zerolog.zero_Logger /\
    once_done st1 = true.
Proof.
  eexists. split; [reflexivity|]. repeat split; reflexivity.
Qed.

(** ** The last statement of the body *)

(** C9. The statement [Logger.With().Caller()] changes nothing: run in any
    state it returns with the state as it was, [InitLog] behaves as if its
    body ended with the assignment to [Logger], and the logger published
    when the probe succeeds is the one the builder chain constructed. *)
Theorem trailing_statement_no_effect :
  (forall st : State, trailing_statement st = Ok tt st) /\
  (forall (lvl : LogLevel) (env : Env) (st : State),
      InitLog lvl env st = once_Do (configure lvl env) st) /\
  (forall (lvl : LogLevel) (env : Env) (st : State) (ip : net.IP),
      once_done st = false ->
      dial (sys st) "udp" "1.1.1.1:53" = Some ip ->
      Logger (state_of (InitLog lvl env st)) =
        build_Logger (snd (resolve lvl env)) (fst (resolve lvl env)) ip).
Proof.
  split; [reflexivity|]. split.
  - intros lvl env st. unfold InitLog, once_Do, bind.
    destruct (once_done st); [reflexivity|].
    destruct (configure lvl env st) as [[] st1|v st1|c st1]; reflexivity.
  - intros lvl env st ip Hd H. now rewrite (InitLog_up _ _ _ ip).
Qed.

Lemma trailing_statement_no_effect_witness :
  Logger (state_of (InitLog ErrorLevel Dev (start online))) =
    build_Logger (snd (resolve ErrorLevel Dev)) (fst (resolve ErrorLevel Dev))
      [x0a; x00; x00; x07].
Proof.
  apply (trailing_statement_no_effect); reflexivity.
Defined.

(** ** The earlier version *)

(** C10. The earlier version resolves every level and environment to the
    same minimum level and the same writer as the current one, and builds
    the same logger from them. *)
Theorem resolve_same_as_earlier_version :
  forall (lvl : LogLevel) (env : Env),
    Prev.resolveLevel lvl = resolveLevel lvl /\
    Prev.resolve lvl env = resolve lvl env /\
    (forall ip : net.IP,
        Prev.build_log (snd (Prev.resolve lvl env))
                       (fst (Prev.resolve lvl env)) ip =
        build_Logger (snd (resolve lvl env)) (fst (resolve lvl env)) ip).
Proof.
  intros lvl env. split; [reflexivity|]. split; [reflexivity|].
  intros ip. reflexivity.
Qed.

(** ** The caller formatter *)

(** C6, as stated, fails.  A process initializes the logger in [/srv/app]
    and then changes to [/tmp]; a record from [/srv/app/main.go], line 42,
    gets the caller field [/srv/app/main.go:42], where the directory
    captured at initialization would give [main.go:42]. *)
Lemma caller_formatter_follows_chdir :
  let st1 := state_of (InitLog InfoLevel Prod (start online)) in
  let st2 := state_of (os_Chdir "/tmp" st1) in
  caller_field st2 "/srv/app/main.go" 42 = "/srv/app/main.go:42" /\
  spec_caller_field "/srv/app" "/srv/app/main.go" 42 = "main.go:42" /\
  ~ captures_working_directory_once.
Proof.
  split; [reflexivity|]. split; [reflexivity|].
  intros H.
  specialize (H InfoLevel Prod (start online) "/tmp" "/srv/app/main.go" 42
                eq_refl).
  vm_compute in H. discriminate H.
Qed.

(** C6, amended.  With the guard open, [InitLog] installs a formatter that
    looks the working directory up each time it renders a caller field: the
    field is the file, without the directory then current and the slash
    after it when the file starts with them, followed by a colon and the
    decimal line number.  A file under the current directory is rendered
    relative to it, and a record emitted by a logger with the caller hook
    carries exactly that field. *)
Theorem caller_formatter_reads_current_directory :
  forall (lvl : LogLevel) (env : Env) (st : State),
    once_done st = false ->
    let st1 := state_of (InitLog lvl env st) in
    (forall (o : OS) (pc : Z) (file : string) (line : Z),
        CallerMarshalFunc st1 o pc file line =
          strings.TrimPrefix file (fst (os_Getwd o) ++ "/")
            ++ ":" ++ strconv.Itoa line) /\
    (forall (o : OS) (pc : Z) (dir rel : string) (line : Z),
        getwd o = Some dir ->
        CallerMarshalFunc st1 o pc (dir ++ "/" ++ rel) line =
          rel ++ ":" ++ strconv.Itoa line) /\
    (forall (st2 : State) (file : string) (line : Z),
        CallerMarshalFunc st2 = CallerMarshalFunc st1 ->
        hook_field st2 (file, line) zerolog.CallerHook =
          ("caller",
           zerolog.VStr
             (strings.TrimPrefix file (fst (os_Getwd (sys st2)) ++ "/")
                ++ ":" ++ strconv.Itoa line))).
Proof.
  intros lvl env st Hd st1.
  assert (Hf : CallerMarshalFunc st1 = shortCallerMarshalFunc).
  { unfold st1.
    destruct (dial (sys st) "udp" "1.1.1.1:53") as [ip|] eqn:H.
    - now rewrite (InitLog_up _ _ _ ip).
    - now rewrite InitLog_down. }
  assert (Hs : forall o pc file line,
             shortCallerMarshalFunc o pc file line =
               strings.TrimPrefix file (fst (os_Getwd o) ++ "/")
                 ++ ":" ++ strconv.Itoa line).
  { intros o pc file line. unfold shortCallerMarshalFunc.
    now destruct (os_Getwd o). }
  split; [|split].
  - intros o pc file line. now rewrite Hf, Hs.
  - intros o pc dir rel line Hwd. rewrite Hf, Hs.
    unfold os_Getwd. rewrite Hwd. simpl fst.
    rewrite <- (string_app_assoc dir "/" rel). now rewrite TrimPrefix_app.
  - intros st2 file line E. unfold hook_field. simpl fst. simpl snd.
    now rewrite E, Hf, Hs.
Qed.

Lemma caller_formatter_reads_current_directory_witness :
  once_done (start online) = false /\
  CallerMarshalFunc (state_of (InitLog InfoLevel Prod (start online)))
    online 0 "/srv/app/cmd/main.go" 7 = "cmd/main.go:7".
Proof.
  split; [reflexivity|].
  refine (proj1 (proj2
            (caller_formatter_reads_current_directory InfoLevel Prod
               (start online) eq_refl))
            online 0 "/srv/app" "cmd/main.go" 7 eq_refl).
Defined.

(** ** Emitting records and updating the context *)

(** Each entry point hands out a builder started on the published logger
    at its own level, with no field added yet. *)
Lemma entry_points_start (st : State) :
  Trace st = Ok (started (Logger st) zerolog.TraceLevel []) st /\
  Debug st = Ok (started (Logger st) zerolog.DebugLevel []) st /\
  Info st = Ok (started (Logger st) zerolog.InfoLevel []) st /\
  Warn st = Ok (started (Logger st) zerolog.WarnLevel []) st /\
  Error st = Ok (started (Logger st) zerolog.ErrorLevel []) st /\
  Fatal st = Ok (started (Logger st) zerolog.FatalLevel []) st /\
  Panic st = Ok (started (Logger st) zerolog.PanicLevel []) st.
Proof.
  repeat split; reflexivity.
Qed.

(** Finalizing a builder appends its lines to what was written before. *)
Lemma Event_Msg_out (site : string * Z) (msg : string)
  (e : option zerolog.Event) (st : State) :
  out (sys (state_of (Event_Msg site msg e st))) =
    (out (sys st) ++ lines_of site msg e st)%list.
Proof.
  destruct e as [ev|]; simpl.
  - destruct (zerolog.ev_level ev =? zerolog.FatalLevel);
      [reflexivity|].
    destruct (zerolog.ev_level ev =? zerolog.PanicLevel); reflexivity.
  - now rewrite app_nil_r.
Qed.

Lemma Event_fields_fold (extra : list zerolog.Field) (ev0 : zerolog.Event) :
  exists ev,
    fold_left (fun e f => zerolog.Event_field f e) extra (Some ev0) = Some ev /\
    zerolog.ev_fields ev = (zerolog.ev_fields ev0 ++ extra)%list /\
    zerolog.ev_hooks ev = zerolog.ev_hooks ev0 /\
    zerolog.ev_w ev = zerolog.ev_w ev0 /\
    zerolog.ev_level ev = zerolog.ev_level ev0.
Proof.
  revert ev0. induction extra as [|f extra IH]; intros ev0; simpl.
  - exists ev0. now rewrite app_nil_r.
  - destruct (IH {| zerolog.ev_w := zerolog.ev_w ev0;
                    zerolog.ev_level := zerolog.ev_level ev0;
                    zerolog.ev_fields := zerolog.ev_fields ev0 ++ [f];
                    zerolog.ev_hooks := zerolog.ev_hooks ev0 |})
      as (ev & E & Hf & Hh & Hw & Hl).
    exists ev. simpl in *. rewrite <- app_assoc in Hf. auto.
Qed.

Lemma started_fields (lg : zerolog.Logger) (lvl : zerolog.Level)
  (extra : list zerolog.Field) (ev : zerolog.Event) :
  started lg lvl extra = Some ev ->
  zerolog.ev_fields ev =
    (("level", zerolog.VStr (zerolog.level_name lvl))
       :: zerolog.context lg ++ extra)%list /\
  zerolog.ev_hooks ev = zerolog.hooks lg.
Proof.
  unfold started, zerolog.newEvent.
  destruct (zerolog.w lg) as [o|].
  - destruct (zerolog.should lg lvl).
    + match goal with
      | |- fold_left _ _ (Some ?e0) = _ -> _ =>
          destruct (Event_fields_fold extra e0) as (ev' & E & Hf & Hh & _)
      end.
      rewrite E. intros [= <-]. simpl in *. now rewrite Hf, Hh.
    + assert (N : fold_left (fun e f => zerolog.Event_field f e) extra None
                  = None) by (induction extra; simpl; auto).
      now rewrite N.
  - assert (N : fold_left (fun e f => zerolog.Event_field f e) extra None
                = None) by (induction extra; simpl; auto).
    now rewrite N.
Qed.

Lemma write_fields (o : zerolog.LevelWriter) (fs : list zerolog.Field)
  (line : os.File * zerolog.Entry) :
  In line (zerolog.write o fs) -> zerolog.fields (snd line) = fs.
Proof.
  destruct o as [ws]. simpl. intros H.
  apply in_map_iff in H as (wr & <- & _). now destruct wr.
Qed.

(** The fields of every line a builder writes: the level, the context of
    the logger, the fields added by the caller, the fields of the hooks and
    the message. *)
Lemma lines_of_fields (site : string * Z) (msg : string)
  (lg : zerolog.Logger) (lvl : zerolog.Level) (extra : list zerolog.Field)
  (st : State) (line : os.File * zerolog.Entry) :
  In line (lines_of site msg (started lg lvl extra) st) ->
  zerolog.fields (snd line) =
    ((("level", zerolog.VStr (zerolog.level_name lvl))
        :: zerolog.context lg ++ extra)
       ++ map (hook_field st site) (zerolog.hooks lg)
       ++ [("message", zerolog.VStr msg)])%list.
Proof.
  unfold lines_of. destruct (started lg lvl extra) as [ev|] eqn:E.
  - intros H. apply write_fields in H. rewrite H.
    apply started_fields in E as [Hf Hh].
    unfold record_fields. now rewrite Hf, Hh.
  - intros [].
Qed.

Lemma hook_field_key (st : State) (site : string * Z) (h : zerolog.Hook) :
  fst (hook_field st site h) = "time" \/ fst (hook_field st site h) = "caller".
Proof.
  destruct h; simpl; auto.
Qed.

(** C7, as stated, fails.  A process starts an info record on the
    initialized logger, then adds a default field with [UpdateContext], then
    finalizes the record: the line is written after the call and carries the
    level, the host address, the time, the call site and the message, but
    not the added field, because the builder took the context of the logger
    when it was started. *)
Lemma builder_started_before_UpdateContext_lacks_the_field :
  out (sys (state_of (straddling_record configured))) =
    [(os.Stderr,
      {| zerolog.format := zerolog.JSONLine;
         zerolog.fields :=
           [("level", zerolog.VStr "info");
            ("host_ip", zerolog.VIP [x0a; x00; x00; x07]);
            ("time", zerolog.VTime 1700000000);
            ("caller", zerolog.VStr "main.go:14");
            ("message", zerolog.VStr "hello world")] |})] /\
  ~ every_later_record_carries_the_update.
Proof.
  split; [reflexivity|].
  intros H.
  specialize (H configured "some_default_key" "some_default_value"
                (Logger configured) zerolog.InfoLevel []
                ("/srv/app/main.go", 14) "hello world"
                (os.Stderr,
                 {| zerolog.format := zerolog.JSONLine;
                    zerolog.fields :=
                      [("level", zerolog.VStr "info");
                       ("host_ip", zerolog.VIP [x0a; x00; x00; x07]);
                       ("time", zerolog.VTime 1700000000);
                       ("caller", zerolog.VStr "main.go:14");
                       ("message", zerolog.VStr "hello world")] |})
                (or_introl eq_refl) (or_introl eq_refl)).
  simpl in H.
  repeat (destruct H as [H|H]; [discriminate H|]).
  exact H.
Qed.

(** C7, amended.  [UpdateContext] returns with the same logger in place,
    changed in its context only: writer, level and hooks, the guard, the
    caller formatter and everything already written stay as they were, and
    the context is the one the mutator returns.  When the mutator appends
    the fields [added] to the context, every record whose builder is started
    on the logger after the call carries each of them, in whatever state it
    is finalized.  A record whose builder was started before the call does
    not carry an added field whose key is new, whether it is finalized
    before the call or after it. *)
Theorem UpdateContext_reaches_later_builders :
  forall st : State,
    (forall update : zerolog.Context -> zerolog.Context,
        let st1 := state_of (UpdateContext update st) in
        UpdateContext update st = Ok tt st1 /\
        (sys st1 = sys st /\
         once_done st1 = once_done st /\
         CallerMarshalFunc st1 = CallerMarshalFunc st /\
         zerolog.w (Logger st1) = zerolog.w (Logger st) /\
         zerolog.level (Logger st1) = zerolog.level (Logger st) /\
         zerolog.hooks (Logger st1) = zerolog.hooks (Logger st)) /\
        zerolog.context (Logger st1) =
          zerolog.context (zerolog.l (update (zerolog.With (Logger st))))) /\
    (forall (update : zerolog.Context -> zerolog.Context)
            (added : list zerolog.Field),
        zerolog.context (zerolog.l (update (zerolog.With (Logger st)))) =
          (zerolog.context (Logger st) ++ added)%list ->
        let st1 := state_of (UpdateContext update st) in
        (forall (st2 st3 : State) (lvl : zerolog.Level)
                (extra : list zerolog.Field) (site : string * Z)
                (msg : string) (line : os.File * zerolog.Entry)
                (f : zerolog.Field),
            Logger st2 = Logger st1 ->
            In line (lines_of site msg (started (Logger st2) lvl extra) st3) ->
            In f added ->
            In f (zerolog.fields (snd line))) /\
        (forall (st2 : State) (lvl : zerolog.Level)
                (extra : list zerolog.Field) (site : string * Z)
                (msg : string) (line : os.File * zerolog.Entry)
                (f : zerolog.Field),
            In line (lines_of site msg (started (Logger st) lvl extra) st2) ->
            In f added ->
            ~ In (fst f) (map fst (zerolog.context (Logger st))) ->
            ~ In (fst f) (map fst extra) ->
            ~ In (fst f) ["level"; "time"; "caller"; "message"] ->
            ~ In f (zerolog.fields (snd line)))).
Proof.
  intros st. split.
  - intros update st1. split; [reflexivity|].
    split; [repeat split; reflexivity|]. reflexivity.
  - intros update added Hadd st1. split.
    + intros st2 st3 lvl extra site msg line f E Hline Hf.
      rewrite (lines_of_fields _ _ _ _ _ _ _ Hline). rewrite E.
      apply in_or_app. left. right. apply in_or_app. left.
      unfold st1. simpl. unfold zerolog.With in Hadd. rewrite Hadd.
      apply in_or_app. now right.
    + intros st2 lvl extra site msg line f Hline _ Hctx Hextra Hstd Hin.
      rewrite (lines_of_fields _ _ _ _ _ _ _ Hline) in Hin.
      apply in_app_or in Hin as [Hin|Hin].
      * destruct Hin as [Hin|Hin].
        { apply Hstd. rewrite <- Hin. simpl. auto. }
        apply in_app_or in Hin as [Hin|Hin].
        { apply Hctx. apply in_map_iff. now exists f. }
        { apply Hextra. apply in_map_iff. now exists f. }
      * apply in_app_or in Hin as [Hin|Hin].
        { apply in_map_iff in Hin as (h & Hh & _).
          apply Hstd. destruct (hook_field_key st2 site h) as [K|K];
            rewrite Hh in K; rewrite K; simpl; auto. }
        { destruct Hin as [Hin|[]].
          apply Hstd. rewrite <- Hin. simpl. auto. }
Qed.

(** The documented use, with the record started after the update and with
    the record started before it and finalized after it. *)
Lemma UpdateContext_reaches_later_builders_witness :
  (exists line,
      In line (hello_lines with_default_field) /\
      In ("some_default_key", zerolog.VStr "some_default_value")
         (zerolog.fields (snd line))) /\
  (exists line,
      In line (lines_of ("/srv/app/main.go", 14) "hello world"
                 (started (Logger configured) zerolog.InfoLevel [])
                 with_default_field) /\
      ~ In ("some_default_key", zerolog.VStr "some_default_value")
           (zerolog.fields (snd line))).
Proof.
  pose proof (proj2 (UpdateContext_reaches_later_builders configured)
                (zerolog.Str "some_default_key" "some_default_value")
                [("some_default_key", zerolog.VStr "some_default_value")]
                eq_refl) as [Hafter Hbefore].
  split.
  - eexists. split; [left; reflexivity|].
    refine (Hafter with_default_field with_default_field zerolog.InfoLevel []
              ("/srv/app/main.go", 14) "hello world" _ _ eq_refl _ _).
    + left. reflexivity.
    + left. reflexivity.
  - eexists. split; [left; reflexivity|].
    refine (Hbefore with_default_field zerolog.InfoLevel []
              ("/srv/app/main.go", 14) "hello world" _ _ _ _ _ _ _).
    + left. reflexivity.
    + left. reflexivity.
    + simpl. intuition discriminate.
    + simpl. tauto.
    + simpl. intuition discriminate.
Defined.

(** * Further properties of the package *)

(** ** The probe and the frame of [InitLog] *)

(** X1. When the dial succeeds, [getLocalIP] returns the local address of
    the connection and closes the connection before it returns: one dial
    more has been made, no connection is left open, and nothing else of the
    process has changed. *)
Theorem getLocalIP_returns_local_address :
  forall (st : State) (ip : net.IP),
    dial (sys st) "udp" "1.1.1.1:53" = Some ip ->
    exists st1,
      getLocalIP st = Ok ip st1 /\
      dials (sys st1) = S (dials (sys st)) /\
      open_conns (sys st1) = open_conns (sys st) /\
      out (sys st1) = out (sys st) /\
      Logger st1 = Logger st /\
      once_done st1 = once_done st /\
      CallerMarshalFunc st1 = CallerMarshalFunc st.
Proof.
  intros st ip H. exists (dialled st).
  split; [now apply getLocalIP_up|]. repeat split; reflexivity.
Qed.

Lemma getLocalIP_returns_local_address_witness :
  exists st1,
    getLocalIP (start online) = Ok [x0a; x00; x00; x07] st1 /\
    dials (sys st1) = S (dials (sys (start online))) /\
    open_conns (sys st1) = open_conns (sys (start online)) /\
    out (sys st1) = out (sys (start online)) /\
    Logger st1 = Logger (start online) /\
    once_done st1 = once_done (start online) /\
    CallerMarshalFunc st1 = CallerMarshalFunc (start online).
Proof.
  apply (getLocalIP_returns_local_address (start online)
           [x0a; x00; x00; x07]).
  reflexivity.
Defined.

(** X2. Whatever its arguments and however it ends, [InitLog] writes
    nothing to the standard streams, leaves no connection open, and leaves
    the working directory and the clock alone; it dials once when the guard
    is open and not at all when the guard is set. *)
Theorem InitLog_frame :
  forall (lvl : LogLevel) (env : Env) (st : State),
    let st1 := state_of (InitLog lvl env st) in
    out (sys st1) = out (sys st) /\
    open_conns (sys st1) = open_conns (sys st) /\
    getwd (sys st1) = getwd (sys st) /\
    now (sys st1) = now (sys st) /\
    dials (sys st1) =
      (if once_done st then dials (sys st) else S (dials (sys st))).
Proof.
  intros lvl env st st1. unfold st1.
  destruct (once_done st) eqn:Hd.
  - rewrite InitLog_done by exact Hd. repeat split; reflexivity.
  - destruct (dial (sys st) "udp" "1.1.1.1:53") as [ip|] eqn:H.
    + rewrite (InitLog_up _ _ _ ip) by assumption. repeat split; reflexivity.
    + rewrite InitLog_down by assumption. repeat split; reflexivity.
Qed.

(** X3. A first call that fails is never made good.  When the dial fails
    with the guard open, [InitLog] has already installed the caller
    formatter but publishes no logger, and it leaves the guard set: every
    later call, also after the network has come up, returns at once and the
    logger stays what it was before the first call. *)
Theorem failed_InitLog_is_not_retried :
  forall (lvl : LogLevel) (env : Env) (st : State),
    once_done st = false ->
    dial (sys st) "udp" "1.1.1.1:53" = None ->
    let st1 := state_of (InitLog lvl env st) in
    Logger st1 = Logger st /\
    CallerMarshalFunc st1 = shortCallerMarshalFunc /\
    (forall (o : OS) (lvl' : LogLevel) (env' : Env),
        InitLog lvl' env' (with_sys o st1) = Ok tt (with_sys o st1) /\
        Logger (with_sys o st1) = Logger st).
Proof.
  intros lvl env st Hd H st1. unfold st1.
  rewrite InitLog_down by assumption. simpl state_of.
  split; [reflexivity|]. split; [reflexivity|].
  intros o lvl' env'. split; [|reflexivity].
  now apply InitLog_done.
Qed.

Lemma failed_InitLog_is_not_retried_witness :
  let st1 := state_of (InitLog InfoLevel Prod (start offline)) in
  Logger st1 = zerolog.zero_Logger /\
  InitLog DebugLevel Dev (with_sys online st1) = Ok tt (with_sys online st1).
Proof.
  pose proof (failed_InitLog_is_not_retried InfoLevel Prod (start offline)
                eq_refl eq_refl) as H.
  split.
  - exact (proj1 H).
  - exact (proj1 (proj2 (proj2 H) online DebugLevel Dev)).
Defined.

(** ** What [InitLog] takes from its arguments *)

Lemma resolveLevel_other (s : LogLevel) :
  ~ In s [TraceLevel; DebugLevel; InfoLevel; WarnLevel;
          ErrorLevel; FatalLevel; PanicLevel] ->
  resolveLevel s = zerolog.InfoLevel.
Proof.
  intros H. unfold resolveLevel.
  repeat match goal with
  | |- context [String.eqb s ?t] =>
      destruct (String.eqb_spec s t) as [->|_];
      [exfalso; apply H; simpl; tauto|]
  end.
  reflexivity.
Qed.

Lemma resolve_dev (lvl : LogLevel) :
  resolve lvl Dev =
    (zerolog.TraceLevel,
     zerolog.MultiLevelWriter [zerolog.ConsoleWriter os.Stdout time.RFC3339]).
Proof.
  reflexivity.
Qed.

Lemma resolve_not_dev (lvl : LogLevel) (env : Env) :
  env <> Dev ->
  resolve lvl env =
    (resolveLevel lvl,
     zerolog.MultiLevelWriter [zerolog.FileWriter os.Stderr]).
Proof.
  intros H. unfold resolve.
  destruct (String.eqb_spec env Dev) as [E|_]; [contradiction|reflexivity].
Qed.

Lemma InitLog_by_resolve (lvl lvl' : LogLevel) (env env' : Env) (st : State) :
  resolve lvl env = resolve lvl' env' ->
  InitLog lvl env st = InitLog lvl' env' st.
Proof.
  intros H. unfold InitLog, configure. now rewrite H.
Qed.

(** X4. In the development environment the requested level plays no part:
    two calls that differ in the level only end alike and leave the same
    state.  Outside it the environment plays no part: all environments
    other than dev, recognized or not, are treated alike. *)
Theorem InitLog_level_and_environment_ignored :
  (forall (lvl lvl' : LogLevel) (st : State),
      InitLog lvl Dev st = InitLog lvl' Dev st) /\
  (forall (lvl : LogLevel) (env env' : Env) (st : State),
      env <> Dev -> env' <> Dev ->
      InitLog lvl env st = InitLog lvl env' st).
Proof.
  split.
  - intros lvl lvl' st. apply InitLog_by_resolve.
    now rewrite !resolve_dev.
  - intros lvl env env' st H H'. apply InitLog_by_resolve.
    now rewrite !resolve_not_dev.
Qed.

Lemma InitLog_level_and_environment_ignored_witness :
  InitLog ErrorLevel Stage (start online) =
    InitLog ErrorLevel "canary" (start online).
Proof.
  apply (proj2 InitLog_level_and_environment_ignored);
    unfold Stage, Dev; discriminate.
Defined.

(** X5. A level that is none of the seven tags is taken for info: the call
    ends as the call with the level info does and leaves the same state. *)
Theorem InitLog_unknown_level_is_info :
  forall (s : LogLevel) (env : Env) (st : State),
    ~ In s [TraceLevel; DebugLevel; InfoLevel; WarnLevel;
            ErrorLevel; FatalLevel; PanicLevel] ->
    InitLog s env st = InitLog InfoLevel env st.
Proof.
  intros s env st H. apply InitLog_by_resolve.
  unfold resolve. now rewrite (resolveLevel_other s H).
Qed.

Lemma InitLog_unknown_level_is_info_witness :
  InitLog "WARN" Prod (start online) = InitLog InfoLevel Prod (start online).
Proof.
  apply InitLog_unknown_level_is_info.
  simpl. unfold TraceLevel, DebugLevel, InfoLevel, WarnLevel, ErrorLevel,
    FatalLevel, PanicLevel.
  intuition discriminate.
Defined.

(** ** [UpdateContext] and [InitLog] *)

(** X6. Context fields added before the logger is initialized are lost:
    the first successful [InitLog] assigns a newly built logger, so the
    published logger is the same with and without an earlier
    [UpdateContext], and its context holds the host address alone. *)
Theorem UpdateContext_before_InitLog_is_lost :
  forall (update : zerolog.Context -> zerolog.Context)
         (lvl : LogLevel) (env : Env) (st : State) (ip : net.IP),
    once_done st = false ->
    dial (sys st) "udp" "1.1.1.1:53" = Some ip ->
    let early := state_of (UpdateContext update st) in
    Logger (state_of (InitLog lvl env early)) =
      Logger (state_of (InitLog lvl env st)) /\
    zerolog.context (Logger (state_of (InitLog lvl env early))) =
      [("host_ip", zerolog.VIP ip)].
Proof.
  intros update lvl env st ip Hd H early.
  rewrite (InitLog_up lvl env early ip) by assumption.
  rewrite (InitLog_up lvl env st ip) by assumption.
  split; reflexivity.
Qed.

Lemma UpdateContext_before_InitLog_is_lost_witness :
  let early :=
    state_of (UpdateContext (zerolog.Str "service" "billing") (start online)) in
  Logger (state_of (InitLog InfoLevel Prod early)) =
    Logger (state_of (InitLog InfoLevel Prod (start online))) /\
  zerolog.context (Logger (state_of (InitLog InfoLevel Prod early))) =
    [("host_ip", zerolog.VIP [x0a; x00; x00; x07])].
Proof.
  apply (UpdateContext_before_InitLog_is_lost
           (zerolog.Str "service" "billing") InfoLevel Prod (start online)
           [x0a; x00; x00; x07]); reflexivity.
Defined.

(** X7. Context fields added after a call of [InitLog] stay: whatever the
    mutator and however the first call ended, a later [InitLog] returns at
    once and leaves the updated logger in place. *)
Theorem UpdateContext_survives_InitLog :
  forall (update : zerolog.Context -> zerolog.Context)
         (lvl lvl' : LogLevel) (env env' : Env) (st : State),
    let st1 := state_of (InitLog lvl env st) in
    let st2 := state_of (UpdateContext update st1) in
    InitLog lvl' env' st2 = Ok tt st2 /\
    Logger (state_of (InitLog lvl' env' st2)) =
      zerolog.Logger_UpdateContext (Logger st1) update.
Proof.
  intros update lvl lvl' env env' st st1 st2.
  assert (Hg : once_done st2 = true).
  { unfold st2. simpl. apply InitLog_sets_guard. }
  rewrite InitLog_done by exact Hg. split; reflexivity.
Qed.

(** X8. Successive updates add up.  Two calls of [UpdateContext] that each
    add a string field leave the state that one call adding both leaves, and
    the context of the logger is the old one followed by the two fields in
    the order of the calls, also when the two keys are the same. *)
Theorem UpdateContext_calls_accumulate :
  forall (k1 v1 k2 v2 : string) (st : State),
    let st2 :=
      state_of (UpdateContext (zerolog.Str k2 v2)
                  (state_of (UpdateContext (zerolog.Str k1 v1) st))) in
    st2 = state_of (UpdateContext
                      (fun c => zerolog.Str k2 v2 (zerolog.Str k1 v1 c)) st) /\
    zerolog.context (Logger st2) =
      (zerolog.context (Logger st)
         ++ [(k1, zerolog.VStr v1); (k2, zerolog.VStr v2)])%list.
Proof.
  intros k1 v1 k2 v2 st st2. unfold st2. simpl.
  split.
  - reflexivity.
  - now rewrite <- app_assoc.
Qed.

(** ** The earlier version as a whole *)

Lemma Prev_getLocalIP_same (st : State) :
  dial (sys st) "udp" "1.1.1.1:http" = dial (sys st) "udp" "1.1.1.1:53" ->
  Prev.getLocalIP st = getLocalIP st.
Proof.
  intros H. unfold Prev.getLocalIP, getLocalIP, bind, net_Dial.
  now rewrite H.
Qed.

(** X9. On a machine where the dial of the address [1.1.1.1:http] has the
    outcome of the dial of [1.1.1.1:53], the earlier version of [InitLog]
    ends as the current one does and leaves the same state. *)
Theorem Prev_InitLog_same :
  forall (lvl : LogLevel) (env : Env) (st : State),
    dial (sys st) "udp" "1.1.1.1:http" = dial (sys st) "udp" "1.1.1.1:53" ->
    Prev.InitLog lvl env st = InitLog lvl env st.
Proof.
  intros lvl env st H.
  unfold Prev.InitLog, InitLog, once_Do.
  destruct (once_done st); [reflexivity|].
  assert (E : Prev.configure lvl env st = configure lvl env st).
  { unfold Prev.configure, configure.
    change (Prev.resolve lvl env) with (resolve lvl env).
    destruct (resolve lvl env) as [lv o].
    unfold bind at 1 3. unfold modify at 1 3.
    unfold bind at 1 2.
    rewrite Prev_getLocalIP_same by exact H. reflexivity. }
  unfold bind. now rewrite E.
Qed.

Lemma Prev_InitLog_same_witness :
  Prev.InitLog WarnLevel Dev (start online) =
    InitLog WarnLevel Dev (start online).
Proof.
  apply Prev_InitLog_same. reflexivity.
Defined.

(** X10. On a machine where the dial of [1.1.1.1:53] succeeds and the dial
    of [1.1.1.1:http] fails, the two versions part: with the guard open the
    earlier [InitLog] ends in the panic of a nil dereference and publishes
    no logger, and the current one returns with the logger built. *)
Theorem Prev_InitLog_fails_where_current_succeeds :
  forall (lvl : LogLevel) (env : Env) (st : State) (ip : net.IP),
    once_done st = false ->
    dial (sys st) "udp" "1.1.1.1:http" = None ->
    dial (sys st) "udp" "1.1.1.1:53" = Some ip ->
    (exists st1,
        Prev.InitLog lvl env st = Panicked NilDereference st1 /\
        Logger st1 = Logger st /\ once_done st1 = true) /\
    (exists st1,
        InitLog lvl env st = Ok tt st1 /\
        Logger st1 =
          build_Logger (snd (resolve lvl env)) (fst (resolve lvl env)) ip).
Proof.
  intros lvl env st ip Hd Hh H53. split.
  - unfold Prev.InitLog, once_Do. rewrite Hd.
    unfold bind at 1. unfold Prev.configure.
    destruct (Prev.resolve lvl env) as [lv o].
    unfold bind at 1. unfold modify at 1. unfold bind at 1.
    unfold Prev.getLocalIP, bind, net_Dial. simpl sys. rewrite Hh.
    simpl. eexists. split; [reflexivity|]. split; reflexivity.
  - eexists. split; [now apply (InitLog_up _ _ _ ip)|]. reflexivity.
Qed.

Lemma Prev_InitLog_fails_where_current_succeeds_witness :
  (exists st1,
      Prev.InitLog InfoLevel Prod (start port_53_only) =
        Panicked NilDereference st1 /\
      Logger st1 = Logger (start port_53_only) /\ once_done st1 = true) /\
  (exists st1,
      InitLog InfoLevel Prod (start port_53_only) = Ok tt st1 /\
      Logger st1 =
        build_Logger (snd (resolve InfoLevel Prod))
          (fst (resolve InfoLevel Prod)) [x0a; x00; x00; x07]).
Proof.
  apply (Prev_InitLog_fails_where_current_succeeds InfoLevel Prod
           (start port_53_only) [x0a; x00; x00; x07]); reflexivity.
Defined.

(** ** Edges of the caller formatter *)

Lemma HasPrefix_app_cancel (p s q : string) :
  strings.HasPrefix (p ++ s) (p ++ q) = strings.HasPrefix s q.
Proof.
  induction p as [|c p IH]; simpl.
  - reflexivity.
  - now rewrite Ascii.eqb_refl, IH.
Qed.

(** X11. The formatter ignores the error of the directory lookup and goes
    on with an empty directory.  When the lookup fails, the prefix it strips
    is the single slash: an absolute path loses its leading slash, and a
    path that does not start with a slash is kept whole. *)
Theorem caller_formatter_without_working_directory :
  forall (o : OS) (pc : Z) (line : Z),
    getwd o = None ->
    (forall rest : string,
        shortCallerMarshalFunc o pc ("/" ++ rest) line =
          rest ++ ":" ++ strconv.Itoa line) /\
    (forall file : string,
        strings.HasPrefix file "/" = false ->
        shortCallerMarshalFunc o pc file line =
          file ++ ":" ++ strconv.Itoa line).
Proof.
  intros o pc line H. unfold shortCallerMarshalFunc, os_Getwd. rewrite H.
  split.
  - intros rest. reflexivity.
  - intros file Hf. change ("" ++ "/")%string with "/".
    now rewrite TrimPrefix_absent.
Qed.

Lemma caller_formatter_without_working_directory_witness :
  shortCallerMarshalFunc without_cwd 0 "/srv/app/main.go" 42 =
    "srv/app/main.go:42".
Proof.
  exact (proj1 (caller_formatter_without_working_directory without_cwd 0 42
                  eq_refl) "srv/app/main.go").
Defined.

(** X12. The formatter strips the working directory only as a whole path
    component.  A file whose path does not start with the directory and a
    slash keeps its full path; so does a path that continues the name of the
    directory with anything but a slash, such as a file in a sibling
    directory whose name starts with the name of the working directory. *)
Theorem caller_formatter_keeps_other_paths :
  forall (o : OS) (pc : Z) (dir : string) (line : Z),
    getwd o = Some dir ->
    (forall file : string,
        strings.HasPrefix file (dir ++ "/") = false ->
        shortCallerMarshalFunc o pc file line =
          file ++ ":" ++ strconv.Itoa line) /\
    (forall rest : string,
        strings.HasPrefix rest "/" = false ->
        shortCallerMarshalFunc o pc (dir ++ rest) line =
          (dir ++ rest) ++ ":" ++ strconv.Itoa line).
Proof.
  intros o pc dir line H. unfold shortCallerMarshalFunc, os_Getwd. rewrite H.
  split.
  - intros file Hf. now rewrite TrimPrefix_absent.
  - intros rest Hr. rewrite TrimPrefix_absent; [reflexivity|].
    now rewrite HasPrefix_app_cancel.
Qed.

Lemma caller_formatter_keeps_other_paths_witness :
  shortCallerMarshalFunc online 0 "/srv/app2/main.go" 42 =
    "/srv/app2/main.go:42".
Proof.
  exact (proj2 (caller_formatter_keeps_other_paths online 0 "/srv/app" 42
                  eq_refl) "2/main.go" eq_refl).
Defined.

(** ** Records after initialization *)

Lemma lines_of_started (site : string * Z) (msg : string)
  (lg : zerolog.Logger) (o : zerolog.LevelWriter) (lvl : zerolog.Level)
  (extra : list zerolog.Field) (st : State) :
  zerolog.w lg = Some o ->
  lines_of site msg (started lg lvl extra) st =
    if zerolog.level lg <=? lvl
    then zerolog.write o
           ((("level", zerolog.VStr (zerolog.level_name lvl))
               :: zerolog.context lg ++ extra)
              ++ map (hook_field st site) (zerolog.hooks lg)
              ++ [("message", zerolog.VStr msg)])%list
    else [].
Proof.
  intros Hw. unfold started, zerolog.newEvent, zerolog.should. rewrite Hw.
  destruct (zerolog.level lg <=? lvl).
  - match goal with
    | |- context [fold_left _ _ (Some ?e0)] =>
        destruct (Event_fields_fold extra e0) as (ev & E & Hf & Hh & Hwr & _)
    end.
    rewrite E. unfold lines_of, record_fields.
    simpl in Hf, Hh, Hwr. now rewrite Hf, Hh, Hwr.
  - assert (N : fold_left (fun e f => zerolog.Event_field f e) extra None
                = None) by (induction extra; simpl; auto).
    now rewrite N.
Qed.

(** X13. Records outside the development environment.  After a successful
    [InitLog] with an environment other than dev, finalizing a record
    builder started at a level below the resolved level writes nothing, and
    finalizing one started at the resolved level or above appends exactly
    one line, on standard error, one structured record per line, with the
    level, the host address found at initialization, the fields of the
    caller, the time, the shortened call site and the message. *)
Theorem records_outside_dev :
  forall (lvl : LogLevel) (env : Env) (st : State) (ip : net.IP)
         (at_level : zerolog.Level) (extra : list zerolog.Field)
         (file : string) (line : Z) (msg : string),
    once_done st = false ->
    dial (sys st) "udp" "1.1.1.1:53" = Some ip ->
    env <> Dev ->
    let st1 := state_of (InitLog lvl env st) in
    out (sys (state_of
                (Event_Msg (file, line) msg
                   (started (Logger st1) at_level extra) st1))) =
      (out (sys st) ++
       if resolveLevel lvl <=? at_level
       then [(os.Stderr,
              {| zerolog.format := zerolog.JSONLine;
                 zerolog.fields :=
                   ("level", zerolog.VStr (zerolog.level_name at_level))
                     :: ("host_ip", zerolog.VIP ip)
                     :: extra ++
                        [("time", zerolog.VTime (now (sys st)));
                         ("caller",
                          zerolog.VStr
                            (strings.TrimPrefix file
                               (fst (os_Getwd (sys st)) ++ "/")
                               ++ ":" ++ strconv.Itoa line));
                         ("message", zerolog.VStr msg)] |})]
       else [])%list.
Proof.
  intros lvl env st ip at_level extra file line msg Hd H Hne st1.
  rewrite Event_Msg_out. unfold st1.
  rewrite (InitLog_up _ _ _ ip) by assumption. simpl state_of.
  rewrite resolve_not_dev by exact Hne.
  erewrite lines_of_started by reflexivity.
  simpl. f_equal.
  destruct (resolveLevel lvl <=? at_level); [|reflexivity].
  unfold shortCallerMarshalFunc, os_Getwd. simpl.
  destruct (getwd (sys st)); reflexivity.
Qed.

Lemma records_outside_dev_witness :
  out (sys (state_of
              (Event_Msg ("/srv/app/main.go", 14) "ready"
                 (started (Logger configured) zerolog.InfoLevel [])
                 configured))) =
    [(os.Stderr,
      {| zerolog.format := zerolog.JSONLine;
         zerolog.fields :=
           [("level", zerolog.VStr "info");
            ("host_ip", zerolog.VIP [x0a; x00; x00; x07]);
            ("time", zerolog.VTime 1700000000);
            ("caller", zerolog.VStr "main.go:14");
            ("message", zerolog.VStr "ready")] |})].
Proof.
  refine (records_outside_dev InfoLevel Prod (start online)
            [x0a; x00; x00; x07] zerolog.InfoLevel []
            "/srv/app/main.go" 14 "ready" eq_refl eq_refl _).
  unfold Prod, Dev. discriminate.
Defined.

(** X14. Records in the development environment.  After a successful
    [InitLog] with the environment dev, whatever level was asked for,
    finalizing a record builder started at trace or above appends exactly
    one line, on standard output and console-formatted, with the same
    fields. *)
Theorem records_in_dev :
  forall (lvl : LogLevel) (st : State) (ip : net.IP)
         (at_level : zerolog.Level) (extra : list zerolog.Field)
         (file : string) (line : Z) (msg : string),
    once_done st = false ->
    dial (sys st) "udp" "1.1.1.1:53" = Some ip ->
    zerolog.TraceLevel <= at_level ->
    let st1 := state_of (InitLog lvl Dev st) in
    out (sys (state_of
                (Event_Msg (file, line) msg
                   (started (Logger st1) at_level extra) st1))) =
      (out (sys st) ++
       [(os.Stdout,
         {| zerolog.format := zerolog.ConsoleLine time.RFC3339;
            zerolog.fields :=
              ("level", zerolog.VStr (zerolog.level_name at_level))
                :: ("host_ip", zerolog.VIP ip)
                :: extra ++
                   [("time", zerolog.VTime (now (sys st)));
                    ("caller",
                     zerolog.VStr
                       (strings.TrimPrefix file
                          (fst (os_Getwd (sys st)) ++ "/")
                          ++ ":" ++ strconv.Itoa line));
                    ("message", zerolog.VStr msg)] |})])%list.
Proof.
  intros lvl st ip at_level extra file line msg Hd H Hle st1.
  rewrite Event_Msg_out. unfold st1.
  rewrite (InitLog_up _ _ _ ip) by assumption.
  unfold state_of. rewrite resolve_dev.
  erewrite lines_of_started by reflexivity.
  simpl zerolog.level.
  replace (zerolog.TraceLevel <=? at_level) with true
    by (symmetry; apply Z.leb_le; exact Hle).
  simpl. f_equal.
  unfold shortCallerMarshalFunc, os_Getwd. simpl.
  destruct (getwd (sys st)); reflexivity.
Qed.

Lemma records_in_dev_witness :
  out (sys (state_of
              (Event_Msg ("/srv/app/main.go", 14) "trace-me"
                 (started
                    (Logger (state_of (InitLog WarnLevel Dev (start online))))
                    zerolog.DebugLevel [])
                 (state_of (InitLog WarnLevel Dev (start online)))))) =
    [(os.Stdout,
      {| zerolog.format := zerolog.ConsoleLine time.RFC3339;
         zerolog.fields :=
           [("level", zerolog.VStr "debug");
            ("host_ip", zerolog.VIP [x0a; x00; x00; x07]);
            ("time", zerolog.VTime 1700000000);
            ("caller", zerolog.VStr "main.go:14");
            ("message", zerolog.VStr "trace-me")] |})].
Proof.
  refine (records_in_dev WarnLevel (start online)
            [x0a; x00; x00; x07] zerolog.DebugLevel []
            "/srv/app/main.go" 14 "trace-me" eq_refl eq_refl _).
  unfold zerolog.TraceLevel, zerolog.DebugLevel. lia.
Defined.
